(** * libuvc control requests (ctrl.cpp)

    A shallow embedding of [RobotCore/src/main/cpp/libuvc/src/ctrl.cpp]:
    the generic unit/terminal controls ([uvc_get_ctrl_len], [uvc_get_ctrl],
    [uvc_set_ctrl]) and the interface controls ([uvc_vc_get_error_code],
    [uvc_vs_get_error_code], [uvc_get_power_mode], [uvc_set_power_mode]).

    Every function is a one-shot round trip against the USB control
    transfer primitive.  The primitive is the only effect, so the functions
    live in a state monad over a world that holds the device behind the bus
    and the journal of the transfers performed so far. *)

From Stdlib Require Import ZArith List Lia Bool.
From coqutil Require Import Byte.
Import ListNotations.
Local Open Scope Z_scope.

(** ** C integer conversions *)

(** Conversion to [uint8_t], [uint16_t] / [unsigned short] and
    [unsigned int]: reduction modulo the width. *)
Definition to_uint8 (z : Z) : Z := z mod 2 ^ 8.
Definition to_uint16 (z : Z) : Z := z mod 2 ^ 16.
Definition to_uint32 (z : Z) : Z := z mod 2 ^ 32.

(** ** Objects of the headers *)

(** [uvc_error], [enum uvc_req_code], [uvc_vc_error_code_control],
    [uvc_vs_error_code_control] and [enum uvc_device_power_mode] are C
    enumerations; the code converts freely between them, [int] and
    [uint8_t], so a value of each is its integer. *)
Definition uvc_error := Z.
Definition uvc_req_code := Z.
Definition uvc_vc_error_code_control := Z.
Definition uvc_vs_error_code_control := Z.
Definition uvc_device_power_mode := Z.

(** The part of the device handle that ctrl.cpp reads:
    [devh->usb_devh] and [devh->info->ctrl_if.bInterfaceNumber]. *)
Record uvc_control_interface_t := { bInterfaceNumber : Z }.
Record uvc_device_info_t := { ctrl_if : uvc_control_interface_t }.
Record uvc_device_handle_t := { usb_devh : Z; info : uvc_device_info_t }.

(** The constants and enumerators that ctrl.cpp takes from [libuvc.h] and
    [libuvc/libuvc_internal.h].  Their values are not fixed by ctrl.cpp, so
    the development is parametric in them. *)
Class libuvc_h := {
  REQ_TYPE_SET : Z;
  REQ_TYPE_GET : Z;
  UVC_SET_CUR : uvc_req_code;
  UVC_GET_LEN : uvc_req_code;
  UVC_VC_VIDEO_POWER_MODE_CONTROL : Z;
  UVC_VC_REQUEST_ERROR_CODE_CONTROL : Z;
  UVC_SUCCESS : uvc_error;
  UVC_ERROR_NOT_SUPPORTED : uvc_error;
  (** the enumerators of [enum uvc_device_power_mode] *)
  uvc_device_power_modes : list uvc_device_power_mode
}.

(** [#define CTRL_TIMEOUT_MILLIS 0] *)
Definition CTRL_TIMEOUT_MILLIS : Z := 0.

(** Modelled from the spec: the macro [SW_TO_SHORT] of
    [libuvc/libuvc_internal.h], which is not part of the sources at hand.
    It reads the two bytes at [p] as a little-endian 16-bit quantity:
    [p[0] | p[1] << 8]. *)
Definition SW_TO_SHORT (p : list byte) : Z :=
  Z.lor (byte.unsigned (nth 0 p Byte.x00))
        (Z.shiftl (byte.unsigned (nth 1 p Byte.x00)) 8).

(** ** The control transfer primitive *)

(** The setup packet and the remaining arguments of one call, after the
    conversions to the parameter types of the primitive. *)
Record control_setup := {
  dev_handle : Z;
  bmRequestType : Z;
  bRequest : Z;
  wValue : Z;
  wIndex : Z;
  wLength : Z;
  timeout : Z
}.

(** One journal entry: the call, the buffer as it was handed over, the
    value the primitive returned and the buffer as it was handed back. *)
Record transfer_event := {
  ev_setup : control_setup;
  ev_data_out : list byte;
  ev_ret : Z;
  ev_data_in : list byte
}.

(** What the bus did with the buffer: the bytes it delivered overwrite the
    front of the buffer, whose size never changes. *)
Definition fill (data rx : list byte) : list byte :=
  firstn (length data) (rx ++ skipn (length rx) data).

(** The environment of a call.  The device behind the bus: given its
    state, a setup packet and the bytes of the buffer, it answers with the
    return value of the transfer (bytes transferred, or a negative error),
    the bytes it delivered, and its next state.  Nothing is assumed about
    the answer. *)
Class usb_bus := {
  usb_device : Type;
  usb_respond : usb_device -> control_setup -> list byte ->
                Z * list byte * usb_device;
  (** the indeterminate byte held by cell [i] of an automatic array that
      was declared without an initialiser *)
  uninitialised : nat -> byte
}.

Section Ctrl.
Context {Hdr : libuvc_h} {Usb : usb_bus}.

Record usb_world := { bus : usb_device; calls : list transfer_event }.

(** State monad over the world. *)
Definition M (A : Type) : Type := usb_world -> A * usb_world.
Definition Return {A} (a : A) : M A := fun w => (a, w).
Definition Bind {A R} (m : M A) (k : A -> M R) : M R :=
  fun w => let (a, w') := m w in k a w'.

Notation "' p <- m ;; k" := (Bind m (fun p => k))
  (at level 100, p pattern, m at next level, right associativity).

(** The transfer primitive
    [libusb_control_transfer(dev_handle, bmRequestType, bRequest, wValue,
    wIndex, data, wLength, timeout)], external to ctrl.cpp.  The arguments
    are converted to its parameter types ([uint8_t], [uint16_t],
    [unsigned int]); it blocks until the device has answered, returns the
    number of bytes transferred or a negative error, and leaves what was
    received in [data].  The call is entered in the journal, most recent
    first. *)
Definition libusb_control_transfer
    (dev_handle bmRequestType bRequest wValue wIndex : Z)
    (data : list byte) (wLength timeout : Z) : M (Z * list byte) :=
  fun w =>
    let s := {| dev_handle := dev_handle;
                bmRequestType := to_uint8 bmRequestType;
                bRequest := to_uint8 bRequest;
                wValue := to_uint16 wValue;
                wIndex := to_uint16 wIndex;
                wLength := to_uint16 wLength;
                timeout := to_uint32 timeout |} in
    let '(n, rx, d) := usb_respond (bus w) s data in
    let data' := fill data rx in
    ((n, data'),
     {| bus := d;
        calls := {| ev_setup := s; ev_data_out := data;
                    ev_ret := n; ev_data_in := data' |} :: calls w |}).

(** *** Generic controls *)

(** [int uvc_get_ctrl_len(devh, unit, ctrl)] *)
Definition uvc_get_ctrl_len (devh : uvc_device_handle_t) (unit ctrl : Z)
    : M Z :=
  let buf := [uninitialised 0; uninitialised 1] in
  '(ret, buf) <- libusb_control_transfer
      (usb_devh devh)
      REQ_TYPE_GET UVC_GET_LEN
      (Z.shiftl ctrl 8)
      (Z.lor (Z.shiftl unit 8) (bInterfaceNumber (ctrl_if (info devh))))
      buf
      2
      CTRL_TIMEOUT_MILLIS ;;
  if ret <? 0 then Return ret
  else Return (to_uint16 (SW_TO_SHORT buf)).

(** [int uvc_get_ctrl(devh, unit, ctrl, data, len, req_code)]; the
    buffer [data] points to is passed in and handed back. *)
Definition uvc_get_ctrl (devh : uvc_device_handle_t) (unit ctrl : Z)
    (data : list byte) (len : Z) (req_code : uvc_req_code)
    : M (Z * list byte) :=
  libusb_control_transfer
    (usb_devh devh)
    REQ_TYPE_GET req_code
    (Z.shiftl ctrl 8)
    (Z.lor (Z.shiftl unit 8) (bInterfaceNumber (ctrl_if (info devh))))
    data
    len
    CTRL_TIMEOUT_MILLIS.

(** [int uvc_set_ctrl(devh, unit, ctrl, data, len)] *)
Definition uvc_set_ctrl (devh : uvc_device_handle_t) (unit ctrl : Z)
    (data : list byte) (len : Z) : M (Z * list byte) :=
  libusb_control_transfer
    (usb_devh devh)
    REQ_TYPE_SET UVC_SET_CUR
    (Z.shiftl ctrl 8)
    (Z.lor (Z.shiftl unit 8) (bInterfaceNumber (ctrl_if (info devh))))
    data
    len
    CTRL_TIMEOUT_MILLIS.

(** *** Interface controls *)

(** [uvc_error uvc_vc_get_error_code(devh, error_code, req_code)].  The
    object [error_code] points to is passed in and handed back next to
    the returned [uvc_error]. *)
Definition uvc_vc_get_error_code (devh : uvc_device_handle_t)
    (error_code : uvc_vc_error_code_control) (req_code : uvc_req_code)
    : M (uvc_error * uvc_vc_error_code_control) :=
  let error_char := [byte.of_Z 0] in
  '(ret, error_char) <- libusb_control_transfer
      (usb_devh devh)
      REQ_TYPE_GET req_code
      (Z.shiftl UVC_VC_REQUEST_ERROR_CODE_CONTROL 8)
      (bInterfaceNumber (ctrl_if (info devh)))
      error_char
      1
      CTRL_TIMEOUT_MILLIS ;;
  if ret =? 1 then
    Return (UVC_SUCCESS, byte.unsigned (nth 0 error_char Byte.x00))
  else
    Return (ret, error_code).

(** [uvc_error uvc_vs_get_error_code(devh, error_code, req_code)]: the
    transfer is compiled out ([#if 0]); what is left is the [#else]
    branch. *)
Definition uvc_vs_get_error_code (devh : uvc_device_handle_t)
    (error_code : uvc_vs_error_code_control) (req_code : uvc_req_code)
    : M (uvc_error * uvc_vs_error_code_control) :=
  let error_char := [byte.of_Z 0] in
  let ret := UVC_SUCCESS in
  let ret := UVC_ERROR_NOT_SUPPORTED in
  Return (ret, error_code).

(** [uvc_error uvc_get_power_mode(devh, mode, req_code)] *)
Definition uvc_get_power_mode (devh : uvc_device_handle_t)
    (mode : uvc_device_power_mode) (req_code : uvc_req_code)
    : M (uvc_error * uvc_device_power_mode) :=
  let mode_char := [uninitialised 0] in
  '(ret, mode_char) <- libusb_control_transfer
      (usb_devh devh)
      REQ_TYPE_GET req_code
      (Z.shiftl UVC_VC_VIDEO_POWER_MODE_CONTROL 8)
      (bInterfaceNumber (ctrl_if (info devh)))
      mode_char
      1
      CTRL_TIMEOUT_MILLIS ;;
  if ret =? 1 then
    Return (UVC_SUCCESS, byte.unsigned (nth 0 mode_char Byte.x00))
  else
    Return (ret, mode).

(** [uvc_error uvc_set_power_mode(devh, mode)] *)
Definition uvc_set_power_mode (devh : uvc_device_handle_t)
    (mode : uvc_device_power_mode) : M uvc_error :=
  let mode_char := [byte.of_Z mode] in
  '(ret, _) <- libusb_control_transfer
      (usb_devh devh)
      REQ_TYPE_SET UVC_SET_CUR
      (Z.shiftl UVC_VC_VIDEO_POWER_MODE_CONTROL 8)
      (bInterfaceNumber (ctrl_if (info devh)))
      mode_char
      1
      CTRL_TIMEOUT_MILLIS ;;
  if ret =? 1 then Return UVC_SUCCESS
  else Return ret.

(** *** Observing a call *)

(** What a call returns when started in world [w], and the journal it
    leaves behind. *)
Definition result {A} (m : M A) (w : usb_world) : A := fst (m w).
Definition journal {A} (m : M A) (w : usb_world) : list transfer_event :=
  calls (snd (m w)).

(** [e] is a transfer the device answered in world [w], leaving the
    device in state [d]: the return value in [e] is the one the device
    gave, and the buffer that came back is the one the bus filled. *)
Definition answered (w : usb_world) (e : transfer_event)
    (d : usb_device) : Prop :=
  exists rx,
    usb_respond (bus w) (ev_setup e) (ev_data_out e) = (ev_ret e, rx, d) /\
    ev_data_in e = fill (ev_data_out e) rx.

(** The call [m], started in [w], performs exactly the transfer [e]. *)
Definition performs {A} (m : M A) (w : usb_world) (e : transfer_event)
    : Prop :=
  journal m w = e :: calls w /\ answered w e (bus (snd (m w))).

End Ctrl.

(** ** A header and a bus to run the functions on *)

(** The values these names have in libuvc's headers. *)
Definition libuvc_values : libuvc_h := {|
  REQ_TYPE_SET := 0x21;
  REQ_TYPE_GET := 0xa1;
  UVC_SET_CUR := 0x01;
  UVC_GET_LEN := 0x85;
  UVC_VC_VIDEO_POWER_MODE_CONTROL := 0x01;
  UVC_VC_REQUEST_ERROR_CODE_CONTROL := 0x02;
  UVC_SUCCESS := 0;
  UVC_ERROR_NOT_SUPPORTED := -12;
  uvc_device_power_modes := [0x0b; 0x1b]
|}.

(** [UVC_GET_CUR] *)
Definition UVC_GET_CUR : uvc_req_code := 0x81.

(** A bus that plays back a script: each transfer consumes the next
    scripted answer, whatever was asked; once the script is over every
    transfer fails with -1.  Uninitialised bytes read as [0xaa]. *)
Definition scripted_bus : usb_bus := {|
  usb_device := list (Z * list byte);
  usb_respond := fun d _ _ =>
    match d with
    | [] => (-1, [], [])
    | (n, rx) :: d' => (n, rx, d')
    end;
  uninitialised := fun _ => Byte.xaa
|}.

(** A fresh world on the scripted bus. *)
Definition plugged (script : list (Z * list byte)) : @usb_world scripted_bus :=
  {| bus := script : @usb_device scripted_bus; calls := [] |}.

(** A camera whose control interface is interface 0. *)
Definition camera : uvc_device_handle_t :=
  {| usb_devh := 1; info := {| ctrl_if := {| bInterfaceNumber := 0 |} |} |}.

(** * Properties *)

Section Properties.
Context {Hdr : libuvc_h} {Usb : usb_bus}.

(** ** Arithmetic of the addressing fields *)

Lemma to_uint16_small z : 0 <= z < 2 ^ 16 -> to_uint16 z = z.
Proof. intros Hz. unfold to_uint16. now apply Z.mod_small. Qed.

Lemma to_uint8_small z : 0 <= z < 2 ^ 8 -> to_uint8 z = z.
Proof. intros Hz. unfold to_uint8. now apply Z.mod_small. Qed.

Lemma shiftl8_pow hi : Z.shiftl hi 8 = 2 ^ 8 * hi.
Proof. rewrite Z.shiftl_mul_pow2 by lia. apply Z.mul_comm. Qed.

(** A byte and a value shifted past it share no bit. *)
Lemma land_shiftl8 hi lo : 0 <= lo < 2 ^ 8 -> Z.land (Z.shiftl hi 8) lo = 0.
Proof.
  intros Hlo. apply Z.bits_inj'. intros n Hn.
  rewrite Z.land_spec, Z.bits_0.
  destruct (Z.ltb_spec n 8) as [Hlt | Hge].
  - now rewrite Z.shiftl_spec_low.
  - destruct (Z.eq_dec lo 0) as [-> | Hnz].
    + now rewrite Z.bits_0, andb_false_r.
    + rewrite (Z.bits_above_log2 lo n), andb_false_r; [reflexivity | lia |].
      apply Z.lt_le_trans with 8; [apply Z.log2_lt_pow2; lia | exact Hge].
Qed.

Lemma lor_shiftl8 hi lo :
  0 <= lo < 2 ^ 8 -> Z.lor (Z.shiftl hi 8) lo = 2 ^ 8 * hi + lo.
Proof.
  intros Hlo.
  rewrite <- Z.lxor_lor, <- Z.add_nocarry_lxor by now apply land_shiftl8.
  now rewrite shiftl8_pow.
Qed.

Lemma selector_fits sel : 0 <= sel < 2 ^ 8 ->
  to_uint16 (Z.shiftl sel 8) = Z.shiftl sel 8.
Proof. intros Hs. apply to_uint16_small. rewrite shiftl8_pow. lia. Qed.

Lemma index_fits unit ifnum : 0 <= unit < 2 ^ 8 -> 0 <= ifnum < 2 ^ 8 ->
  to_uint16 (Z.lor (Z.shiftl unit 8) ifnum) = Z.lor (Z.shiftl unit 8) ifnum.
Proof.
  intros Hu Hi. apply to_uint16_small. rewrite lor_shiftl8 by assumption. lia.
Qed.

(** ** The buffer *)

Lemma length_fill data rx : length (fill data rx) = length data.
Proof.
  unfold fill. rewrite length_firstn, length_app, length_skipn. lia.
Qed.

Lemma fill_one b rx : exists b', fill [b] rx = [b'].
Proof.
  pose proof (length_fill [b] rx) as Hl.
  destruct (fill [b] rx) as [| b' [| ? ?]]; try discriminate. now exists b'.
Qed.

Lemma fill_two b0 b1 rx : exists c0 c1, fill [b0; b1] rx = [c0; c1].
Proof.
  pose proof (length_fill [b0; b1] rx) as Hl.
  destruct (fill [b0; b1] rx) as [| c0 [| c1 [| ? ?]]]; try discriminate.
  now exists c0, c1.
Qed.

(** The two bytes read by [SW_TO_SHORT], as a number. *)
Lemma SW_TO_SHORT_le b0 b1 :
  SW_TO_SHORT [b0; b1] = byte.unsigned b0 + 2 ^ 8 * byte.unsigned b1.
Proof.
  unfold SW_TO_SHORT. simpl nth.
  rewrite Z.lor_comm, lor_shiftl8 by apply byte.unsigned_range. lia.
Qed.

Lemma SW_TO_SHORT_range b0 b1 : 0 <= SW_TO_SHORT [b0; b1] < 2 ^ 16.
Proof.
  rewrite SW_TO_SHORT_le.
  pose proof (byte.unsigned_range b0). pose proof (byte.unsigned_range b1).
  lia.
Qed.

(** ** The primitive *)

(** One call of the primitive performs one transfer, with the arguments
    converted to the parameter types, and returns what the device
    answered. *)
Lemma libusb_control_transfer_performs h rt rq v i data len t w :
  exists e,
    performs (libusb_control_transfer h rt rq v i data len t) w e /\
    ev_setup e = {| dev_handle := h; bmRequestType := to_uint8 rt;
                    bRequest := to_uint8 rq; wValue := to_uint16 v;
                    wIndex := to_uint16 i; wLength := to_uint16 len;
                    timeout := to_uint32 t |} /\
    ev_data_out e = data /\
    result (libusb_control_transfer h rt rq v i data len t) w
      = (ev_ret e, ev_data_in e).
Proof.
  unfold performs, journal, result, answered, libusb_control_transfer.
  destruct (usb_respond _ _ _) as [[n rx] d] eqn:Hr. simpl.
  eexists. repeat split; simpl; try reflexivity.
  exists rx. split; [exact Hr | reflexivity].
Qed.

(** A call that performs one transfer performs no other. *)
Lemma performs_unique {A} (m : M A) w e e' :
  performs m w e -> performs m w e' -> e = e'.
Proof. intros [He _] [He' _]. congruence. Qed.

Ltac run_transfer :=
  unfold performs, journal, result, answered, Bind, Return,
    libusb_control_transfer;
  destruct (usb_respond _ _ _) as [[n rx] d] eqn:Hr; simpl.

Ltac transfer_done rx Hr :=
  eexists; repeat split; simpl; try reflexivity;
  try (exists rx; split; [exact Hr | reflexivity]).

(** A one-byte buffer comes back as a one-byte buffer. *)
Lemma one_byte_back w e d b :
  answered w e d -> ev_data_out e = [b] -> exists b', ev_data_in e = [b'].
Proof. intros (rx & _ & ->) ->. apply fill_one. Qed.

(** ** What each function does with the answer *)

Lemma uvc_get_ctrl_len_run devh unit ctrl w :
  exists e,
    performs (uvc_get_ctrl_len devh unit ctrl) w e /\
    wValue (ev_setup e) = to_uint16 (Z.shiftl ctrl 8) /\
    wIndex (ev_setup e) =
      to_uint16
        (Z.lor (Z.shiftl unit 8) (bInterfaceNumber (ctrl_if (info devh)))) /\
    wLength (ev_setup e) = 2 /\
    ev_data_out e = [uninitialised 0; uninitialised 1] /\
    result (uvc_get_ctrl_len devh unit ctrl) w =
      if ev_ret e <? 0 then ev_ret e
      else to_uint16 (SW_TO_SHORT (ev_data_in e)).
Proof.
  unfold uvc_get_ctrl_len. run_transfer.
  destruct (n <? 0) eqn:Hn; simpl.
  all: transfer_done rx Hr; now rewrite Hn.
Qed.

Lemma uvc_get_ctrl_run devh unit ctrl data len req_code w :
  exists e,
    performs (uvc_get_ctrl devh unit ctrl data len req_code) w e /\
    wValue (ev_setup e) = to_uint16 (Z.shiftl ctrl 8) /\
    wIndex (ev_setup e) =
      to_uint16
        (Z.lor (Z.shiftl unit 8) (bInterfaceNumber (ctrl_if (info devh)))) /\
    bRequest (ev_setup e) = to_uint8 req_code /\
    ev_data_out e = data /\
    result (uvc_get_ctrl devh unit ctrl data len req_code) w
      = (ev_ret e, ev_data_in e).
Proof. unfold uvc_get_ctrl. run_transfer. transfer_done rx Hr. Qed.

Lemma uvc_set_ctrl_run devh unit ctrl data len w :
  exists e,
    performs (uvc_set_ctrl devh unit ctrl data len) w e /\
    wValue (ev_setup e) = to_uint16 (Z.shiftl ctrl 8) /\
    wIndex (ev_setup e) =
      to_uint16
        (Z.lor (Z.shiftl unit 8) (bInterfaceNumber (ctrl_if (info devh)))) /\
    bRequest (ev_setup e) = to_uint8 UVC_SET_CUR /\
    ev_data_out e = data /\
    result (uvc_set_ctrl devh unit ctrl data len) w
      = (ev_ret e, ev_data_in e).
Proof. unfold uvc_set_ctrl. run_transfer. transfer_done rx Hr. Qed.

Lemma uvc_vc_get_error_code_run devh error_code req_code w :
  exists e,
    performs (uvc_vc_get_error_code devh error_code req_code) w e /\
    wValue (ev_setup e) =
      to_uint16 (Z.shiftl UVC_VC_REQUEST_ERROR_CODE_CONTROL 8) /\
    wIndex (ev_setup e) =
      to_uint16 (bInterfaceNumber (ctrl_if (info devh))) /\
    wLength (ev_setup e) = 1 /\
    ev_data_out e = [byte.of_Z 0] /\
    result (uvc_vc_get_error_code devh error_code req_code) w =
      if ev_ret e =? 1
      then (UVC_SUCCESS, byte.unsigned (nth 0 (ev_data_in e) Byte.x00))
      else (ev_ret e, error_code).
Proof.
  unfold uvc_vc_get_error_code. run_transfer.
  destruct (n =? 1) eqn:Hn; simpl.
  all: transfer_done rx Hr; now rewrite Hn.
Qed.

Lemma uvc_get_power_mode_run devh mode req_code w :
  exists e,
    performs (uvc_get_power_mode devh mode req_code) w e /\
    wValue (ev_setup e) =
      to_uint16 (Z.shiftl UVC_VC_VIDEO_POWER_MODE_CONTROL 8) /\
    wIndex (ev_setup e) =
      to_uint16 (bInterfaceNumber (ctrl_if (info devh))) /\
    wLength (ev_setup e) = 1 /\
    ev_data_out e = [uninitialised 0] /\
    result (uvc_get_power_mode devh mode req_code) w =
      if ev_ret e =? 1
      then (UVC_SUCCESS, byte.unsigned (nth 0 (ev_data_in e) Byte.x00))
      else (ev_ret e, mode).
Proof.
  unfold uvc_get_power_mode. run_transfer.
  destruct (n =? 1) eqn:Hn; simpl.
  all: transfer_done rx Hr; now rewrite Hn.
Qed.

Lemma uvc_set_power_mode_run devh mode w :
  exists e,
    performs (uvc_set_power_mode devh mode) w e /\
    wValue (ev_setup e) =
      to_uint16 (Z.shiftl UVC_VC_VIDEO_POWER_MODE_CONTROL 8) /\
    wIndex (ev_setup e) =
      to_uint16 (bInterfaceNumber (ctrl_if (info devh))) /\
    bRequest (ev_setup e) = to_uint8 UVC_SET_CUR /\
    wLength (ev_setup e) = 1 /\
    ev_data_out e = [byte.of_Z mode] /\
    result (uvc_set_power_mode devh mode) w =
      if ev_ret e =? 1 then UVC_SUCCESS else ev_ret e.
Proof.
  unfold uvc_set_power_mode. run_transfer.
  destruct (n =? 1) eqn:Hn; simpl.
  all: transfer_done rx Hr; now rewrite Hn.
Qed.

(** ** Addressing *)

(** C1.  For every 8-bit unit id, control selector and interface number,
    [uvc_get_ctrl_len], [uvc_get_ctrl] and [uvc_set_ctrl] each call the
    transfer primitive with [wValue = ctrl << 8] and
    [wIndex = unit << 8 | bInterfaceNumber]. *)
Theorem unit_requests_addressing devh unit ctrl data len req_code w :
  0 <= unit < 2 ^ 8 ->
  0 <= ctrl < 2 ^ 8 ->
  0 <= bInterfaceNumber (ctrl_if (info devh)) < 2 ^ 8 ->
  (exists e,
     performs (uvc_get_ctrl_len devh unit ctrl) w e /\
     wValue (ev_setup e) = Z.shiftl ctrl 8 /\
     wIndex (ev_setup e) =
       Z.lor (Z.shiftl unit 8) (bInterfaceNumber (ctrl_if (info devh)))) /\
  (exists e,
     performs (uvc_get_ctrl devh unit ctrl data len req_code) w e /\
     wValue (ev_setup e) = Z.shiftl ctrl 8 /\
     wIndex (ev_setup e) =
       Z.lor (Z.shiftl unit 8) (bInterfaceNumber (ctrl_if (info devh)))) /\
  (exists e,
     performs (uvc_set_ctrl devh unit ctrl data len) w e /\
     wValue (ev_setup e) = Z.shiftl ctrl 8 /\
     wIndex (ev_setup e) =
       Z.lor (Z.shiftl unit 8) (bInterfaceNumber (ctrl_if (info devh)))).
Proof.
  intros Hu Hc Hi. repeat split.
  - destruct (uvc_get_ctrl_len_run devh unit ctrl w)
      as (e & Hp & Hv & Hx & _).
    exists e. rewrite Hv, Hx, selector_fits, index_fits by assumption.
    now split.
  - destruct (uvc_get_ctrl_run devh unit ctrl data len req_code w)
      as (e & Hp & Hv & Hx & _).
    exists e. rewrite Hv, Hx, selector_fits, index_fits by assumption.
    now split.
  - destruct (uvc_set_ctrl_run devh unit ctrl data len w)
      as (e & Hp & Hv & Hx & _).
    exists e. rewrite Hv, Hx, selector_fits, index_fits by assumption.
    now split.
Qed.

(** C4.  The VC error-code query and the two power-mode operations
    address the control interface alone: [wValue] is the fixed selector in
    the high byte, [wIndex] is the interface number, and the high byte of
    [wIndex] carries no unit id. *)
Theorem interface_requests_addressing devh error_code mode req_code w :
  0 <= UVC_VC_REQUEST_ERROR_CODE_CONTROL < 2 ^ 8 ->
  0 <= UVC_VC_VIDEO_POWER_MODE_CONTROL < 2 ^ 8 ->
  0 <= bInterfaceNumber (ctrl_if (info devh)) < 2 ^ 8 ->
  (exists e,
     performs (uvc_vc_get_error_code devh error_code req_code) w e /\
     wValue (ev_setup e) = Z.shiftl UVC_VC_REQUEST_ERROR_CODE_CONTROL 8 /\
     wIndex (ev_setup e) = bInterfaceNumber (ctrl_if (info devh)) /\
     Z.shiftr (wIndex (ev_setup e)) 8 = 0) /\
  (exists e,
     performs (uvc_get_power_mode devh mode req_code) w e /\
     wValue (ev_setup e) = Z.shiftl UVC_VC_VIDEO_POWER_MODE_CONTROL 8 /\
     wIndex (ev_setup e) = bInterfaceNumber (ctrl_if (info devh)) /\
     Z.shiftr (wIndex (ev_setup e)) 8 = 0) /\
  (exists e,
     performs (uvc_set_power_mode devh mode) w e /\
     wValue (ev_setup e) = Z.shiftl UVC_VC_VIDEO_POWER_MODE_CONTROL 8 /\
     wIndex (ev_setup e) = bInterfaceNumber (ctrl_if (info devh)) /\
     Z.shiftr (wIndex (ev_setup e)) 8 = 0).
Proof.
  intros He Hm Hi.
  assert (Hhi : Z.shiftr (bInterfaceNumber (ctrl_if (info devh))) 8 = 0).
  { rewrite Z.shiftr_div_pow2 by lia. apply Z.div_small. lia. }
  assert (Hlo : to_uint16 (bInterfaceNumber (ctrl_if (info devh)))
                = bInterfaceNumber (ctrl_if (info devh))).
  { apply to_uint16_small. lia. }
  repeat split.
  - destruct (uvc_vc_get_error_code_run devh error_code req_code w)
      as (e & Hp & Hv & Hx & _).
    exists e. rewrite Hv, Hx, Hlo, selector_fits by assumption.
    now split.
  - destruct (uvc_get_power_mode_run devh mode req_code w)
      as (e & Hp & Hv & Hx & _).
    exists e. rewrite Hv, Hx, Hlo, selector_fits by assumption.
    now split.
  - destruct (uvc_set_power_mode_run devh mode w)
      as (e & Hp & Hv & Hx & _).
    exists e. rewrite Hv, Hx, Hlo, selector_fits by assumption.
    now split.
Qed.

(** ** Pass-through of the generic requests *)

(** C8.  [uvc_get_ctrl] and [uvc_set_ctrl] perform exactly one transfer
    and return the value the primitive returned, byte count or negative
    error alike, with the buffer as the primitive left it. *)
Theorem get_set_ctrl_pass_through devh unit ctrl data len req_code w :
  (exists e,
     performs (uvc_get_ctrl devh unit ctrl data len req_code) w e /\
     result (uvc_get_ctrl devh unit ctrl data len req_code) w
       = (ev_ret e, ev_data_in e)) /\
  (exists e,
     performs (uvc_set_ctrl devh unit ctrl data len) w e /\
     result (uvc_set_ctrl devh unit ctrl data len) w
       = (ev_ret e, ev_data_in e)).
Proof.
  split.
  - destruct (uvc_get_ctrl_run devh unit ctrl data len req_code w)
      as (e & Hp & _ & _ & _ & _ & Hres).
    now exists e.
  - destruct (uvc_set_ctrl_run devh unit ctrl data len w)
      as (e & Hp & _ & _ & _ & _ & Hres).
    now exists e.
Qed.

(** ** The disabled streaming query *)

(** C2.  [uvc_vs_get_error_code] returns [UVC_ERROR_NOT_SUPPORTED] on every
    input and performs no transfer: the world it leaves is the world it
    found. *)
Theorem uvc_vs_get_error_code_not_supported devh error_code req_code w :
  fst (result (uvc_vs_get_error_code devh error_code req_code) w)
    = UVC_ERROR_NOT_SUPPORTED /\
  journal (uvc_vs_get_error_code devh error_code req_code) w = calls w /\
  snd (uvc_vs_get_error_code devh error_code req_code w) = w.
Proof. repeat split. Qed.

(** ** The length query *)

(** The two outcomes of [uvc_get_ctrl_len], by the sign of the transfer
    result. *)
Lemma uvc_get_ctrl_len_cases devh unit ctrl w :
  exists e b0 b1,
    performs (uvc_get_ctrl_len devh unit ctrl) w e /\
    ev_data_in e = [b0; b1] /\
    (ev_ret e < 0 ->
     result (uvc_get_ctrl_len devh unit ctrl) w = ev_ret e) /\
    (0 <= ev_ret e ->
     result (uvc_get_ctrl_len devh unit ctrl) w
       = byte.unsigned b0 + 2 ^ 8 * byte.unsigned b1).
Proof.
  destruct (uvc_get_ctrl_len_run devh unit ctrl w)
    as (e & Hp & _ & _ & _ & Hout & Hres).
  assert (Hin : exists b0 b1, ev_data_in e = [b0; b1]).
  { destruct Hp as [_ (rx & _ & ->)]. rewrite Hout. apply fill_two. }
  destruct Hin as (b0 & b1 & Hin).
  exists e, b0, b1. rewrite Hres, Hin.
  rewrite to_uint16_small, SW_TO_SHORT_le by apply SW_TO_SHORT_range.
  destruct (Z.ltb_spec (ev_ret e) 0).
  all: split; [exact Hp | split; [reflexivity |]].
  all: split; intros; solve [reflexivity | lia].
Qed.

(** C5.  [uvc_get_ctrl_len] returns a negative value exactly when the
    primitive did, and then it is that value; otherwise it returns the two
    bytes of the response buffer read as a little-endian unsigned 16-bit
    number, which lies in [0, 65535]. *)
Theorem uvc_get_ctrl_len_decodes devh unit ctrl w :
  exists e b0 b1,
    performs (uvc_get_ctrl_len devh unit ctrl) w e /\
    ev_data_in e = [b0; b1] /\
    (result (uvc_get_ctrl_len devh unit ctrl) w < 0 <-> ev_ret e < 0) /\
    (ev_ret e < 0 ->
     result (uvc_get_ctrl_len devh unit ctrl) w = ev_ret e) /\
    (0 <= ev_ret e ->
     result (uvc_get_ctrl_len devh unit ctrl) w
       = byte.unsigned b0 + 2 ^ 8 * byte.unsigned b1 /\
     0 <= result (uvc_get_ctrl_len devh unit ctrl) w <= 65535).
Proof.
  destruct (uvc_get_ctrl_len_cases devh unit ctrl w)
    as (e & b0 & b1 & Hp & Hin & Hneg & Hok).
  exists e, b0, b1.
  pose proof (byte.unsigned_range b0). pose proof (byte.unsigned_range b1).
  destruct (Z.lt_ge_cases (ev_ret e) 0) as [Hlt | Hge].
  - specialize (Hneg Hlt).
    split; [exact Hp | split; [exact Hin |]].
    repeat split; intros; lia.
  - specialize (Hok Hge).
    split; [exact Hp | split; [exact Hin |]].
    repeat split; intros; lia.
Qed.

(** C9.  When the primitive reports fewer bytes than the two asked for
    (0 or 1), [uvc_get_ctrl_len] still reads the buffer and returns its
    two bytes as the length, a non-negative value; it reports no failure.
    A failure comes back only for a strictly negative transfer result. *)
Theorem uvc_get_ctrl_len_short_response devh unit ctrl w e :
  performs (uvc_get_ctrl_len devh unit ctrl) w e ->
  0 <= ev_ret e < 2 ->
  result (uvc_get_ctrl_len devh unit ctrl) w
    = to_uint16 (SW_TO_SHORT (ev_data_in e)) /\
  0 <= result (uvc_get_ctrl_len devh unit ctrl) w /\
  (forall w' e',
     performs (uvc_get_ctrl_len devh unit ctrl) w' e' ->
     (result (uvc_get_ctrl_len devh unit ctrl) w' < 0 <-> ev_ret e' < 0)).
Proof.
  intros Hp Hshort.
  assert (Hsign : forall w' e',
    performs (uvc_get_ctrl_len devh unit ctrl) w' e' ->
    (result (uvc_get_ctrl_len devh unit ctrl) w' < 0 <-> ev_ret e' < 0)).
  { intros w' e' Hp'.
    destruct (uvc_get_ctrl_len_cases devh unit ctrl w')
      as (e1 & b0 & b1 & Hp1 & _ & Hneg & Hok).
    rewrite (performs_unique _ _ _ _ Hp' Hp1).
    pose proof (byte.unsigned_range b0). pose proof (byte.unsigned_range b1).
    destruct (Z.lt_ge_cases (ev_ret e1) 0) as [Hlt | Hge].
    - specialize (Hneg Hlt). lia.
    - specialize (Hok Hge). lia. }
  destruct (uvc_get_ctrl_len_run devh unit ctrl w)
    as (e1 & Hp1 & _ & _ & _ & _ & Hres).
  rewrite <- (performs_unique _ _ _ _ Hp Hp1) in Hres.
  destruct (Z.ltb_spec (ev_ret e) 0) as [Hlt | _]; [lia |].
  split; [exact Hres | split; [| exact Hsign]].
  pose proof (proj1 (Hsign w e Hp)). lia.
Qed.

(** ** The one-byte queries *)

(** The two outcomes of [uvc_vc_get_error_code]: one byte transferred
    gives [UVC_SUCCESS] and the byte; anything else gives the transfer
    result back and leaves the output alone. *)
Lemma uvc_vc_get_error_code_cases devh error_code req_code w e :
  performs (uvc_vc_get_error_code devh error_code req_code) w e ->
  exists b,
    ev_data_in e = [b] /\
    (ev_ret e = 1 ->
     result (uvc_vc_get_error_code devh error_code req_code) w
       = (UVC_SUCCESS, byte.unsigned b)) /\
    (ev_ret e <> 1 ->
     result (uvc_vc_get_error_code devh error_code req_code) w
       = (ev_ret e, error_code)).
Proof.
  intros Hp.
  destruct (uvc_vc_get_error_code_run devh error_code req_code w)
    as (e1 & Hp1 & _ & _ & _ & Hout & Hres).
  rewrite (performs_unique _ _ _ _ Hp Hp1), Hres.
  destruct (one_byte_back w e1 _ _ (proj2 Hp1) Hout) as [b Hb].
  exists b. rewrite Hb. split; [reflexivity | split; intros Hn].
  - now rewrite Hn.
  - now destruct (Z.eqb_spec (ev_ret e1) 1).
Qed.

Lemma uvc_get_power_mode_cases devh mode req_code w e :
  performs (uvc_get_power_mode devh mode req_code) w e ->
  exists b,
    ev_data_in e = [b] /\
    (ev_ret e = 1 ->
     result (uvc_get_power_mode devh mode req_code) w
       = (UVC_SUCCESS, byte.unsigned b)) /\
    (ev_ret e <> 1 ->
     result (uvc_get_power_mode devh mode req_code) w
       = (ev_ret e, mode)).
Proof.
  intros Hp.
  destruct (uvc_get_power_mode_run devh mode req_code w)
    as (e1 & Hp1 & _ & _ & _ & Hout & Hres).
  rewrite (performs_unique _ _ _ _ Hp Hp1), Hres.
  destruct (one_byte_back w e1 _ _ (proj2 Hp1) Hout) as [b Hb].
  exists b. rewrite Hb. split; [reflexivity | split; intros Hn].
  - now rewrite Hn.
  - now destruct (Z.eqb_spec (ev_ret e1) 1).
Qed.

(** What [uvc_set_power_mode] sends and returns. *)
Lemma uvc_set_power_mode_cases devh mode w e :
  performs (uvc_set_power_mode devh mode) w e ->
  bRequest (ev_setup e) = to_uint8 UVC_SET_CUR /\
  wLength (ev_setup e) = 1 /\
  ev_data_out e = [byte.of_Z mode] /\
  (ev_ret e = 1 -> result (uvc_set_power_mode devh mode) w = UVC_SUCCESS) /\
  (ev_ret e <> 1 -> result (uvc_set_power_mode devh mode) w = ev_ret e).
Proof.
  intros Hp.
  destruct (uvc_set_power_mode_run devh mode w)
    as (e1 & Hp1 & _ & _ & Hrq & Hlen & Hout & Hres).
  rewrite (performs_unique _ _ _ _ Hp Hp1), Hres.
  repeat split; try assumption; intros Hn.
  - now rewrite Hn.
  - now destruct (Z.eqb_spec (ev_ret e1) 1).
Qed.

(** The payload byte of [uvc_set_power_mode] is the numeric value of the
    mode, for every mode that fits a byte. *)
Lemma power_mode_payload mode :
  0 <= mode < 2 ^ 8 -> byte.unsigned (byte.of_Z mode) = mode.
Proof.
  intros Hm. rewrite byte.unsigned_of_Z. unfold byte.wrap.
  now apply Z.mod_small.
Qed.

(** C7, as the code has it.  When the transfer reports exactly one byte,
    [uvc_get_power_mode] stores the response byte through [mode] as it
    came, whatever its value, and returns [UVC_SUCCESS]; the byte is not
    compared with the enumerators of [uvc_device_power_mode]. *)
Theorem uvc_get_power_mode_stores_any_byte devh mode req_code w e :
  performs (uvc_get_power_mode devh mode req_code) w e ->
  ev_ret e = 1 ->
  exists b,
    ev_data_in e = [b] /\
    result (uvc_get_power_mode devh mode req_code) w
      = (UVC_SUCCESS, byte.unsigned b).
Proof.
  intros Hp Hone.
  destruct (uvc_get_power_mode_cases devh mode req_code w e Hp)
    as (b & Hb & Hok & _).
  exists b. split; [exact Hb | now apply Hok].
Qed.

(** C10.  When the transfer result is anything but one byte,
    [uvc_vc_get_error_code] and [uvc_get_power_mode] hand back the object
    behind their output pointer as they received it;
    [uvc_vs_get_error_code] does so on every input. *)
Theorem outputs_left_alone
    devh error_code mode vs_error_code req_code w e1 e2 :
  performs (uvc_vc_get_error_code devh error_code req_code) w e1 ->
  performs (uvc_get_power_mode devh mode req_code) w e2 ->
  (ev_ret e1 <> 1 ->
   snd (result (uvc_vc_get_error_code devh error_code req_code) w)
     = error_code) /\
  (ev_ret e2 <> 1 ->
   snd (result (uvc_get_power_mode devh mode req_code) w) = mode) /\
  (forall w',
   snd (result (uvc_vs_get_error_code devh vs_error_code req_code) w')
     = vs_error_code).
Proof.
  intros Hp1 Hp2.
  destruct (uvc_vc_get_error_code_cases devh error_code req_code w e1 Hp1)
    as (_ & _ & _ & Hko1).
  destruct (uvc_get_power_mode_cases devh mode req_code w e2 Hp2)
    as (_ & _ & _ & Hko2).
  split; [| split].
  - intros Hn. now rewrite (Hko1 Hn).
  - intros Hn. now rewrite (Hko2 Hn).
  - reflexivity.
Qed.

(** * Further properties of the control requests *)

(** ** A device that gives one answer to every request *)

Lemma answered_ret w e d n :
  (forall s buf, fst (fst (usb_respond (bus w) s buf)) = n) ->
  answered w e d -> ev_ret e = n.
Proof.
  intros Hdev (rx & Hr & _).
  specialize (Hdev (ev_setup e) (ev_data_out e)).
  rewrite Hr in Hdev. now simpl in Hdev.
Qed.

Lemma answered_with w e d n rx :
  (forall s buf, fst (usb_respond (bus w) s buf) = (n, rx)) ->
  answered w e d ->
  ev_ret e = n /\ ev_data_in e = fill (ev_data_out e) rx.
Proof.
  intros Hdev (rx' & Hr & Hin).
  specialize (Hdev (ev_setup e) (ev_data_out e)).
  rewrite Hr in Hdev. simpl in Hdev. injection Hdev as -> ->.
  now split.
Qed.

(** X1.  A transport failure comes back unchanged from every function
    that performs a transfer: when the device answers with the negative
    value [n], [uvc_get_ctrl_len], [uvc_get_ctrl], [uvc_set_ctrl],
    [uvc_vc_get_error_code], [uvc_get_power_mode] and [uvc_set_power_mode]
    all return [n], and the two queries leave their output as it was. *)
Theorem transport_failure_propagates
    devh unit ctrl data len req_code error_code mode w n :
  n < 0 ->
  (forall s buf, fst (fst (usb_respond (bus w) s buf)) = n) ->
  result (uvc_get_ctrl_len devh unit ctrl) w = n /\
  fst (result (uvc_get_ctrl devh unit ctrl data len req_code) w) = n /\
  fst (result (uvc_set_ctrl devh unit ctrl data len) w) = n /\
  result (uvc_vc_get_error_code devh error_code req_code) w
    = (n, error_code) /\
  result (uvc_get_power_mode devh mode req_code) w = (n, mode) /\
  result (uvc_set_power_mode devh mode) w = n.
Proof.
  intros Hn Hdev.
  assert (Hlt : (n <? 0) = true) by now apply Z.ltb_lt.
  assert (Hne : (n =? 1) = false) by (apply Z.eqb_neq; lia).
  repeat split.
  - destruct (uvc_get_ctrl_len_run devh unit ctrl w)
      as (e & [_ Ha] & _ & _ & _ & _ & ->).
    now rewrite (answered_ret _ _ _ _ Hdev Ha), Hlt.
  - destruct (uvc_get_ctrl_run devh unit ctrl data len req_code w)
      as (e & [_ Ha] & _ & _ & _ & _ & ->).
    exact (answered_ret _ _ _ _ Hdev Ha).
  - destruct (uvc_set_ctrl_run devh unit ctrl data len w)
      as (e & [_ Ha] & _ & _ & _ & _ & ->).
    exact (answered_ret _ _ _ _ Hdev Ha).
  - destruct (uvc_vc_get_error_code_run devh error_code req_code w)
      as (e & [_ Ha] & _ & _ & _ & _ & ->).
    now rewrite (answered_ret _ _ _ _ Hdev Ha), Hne.
  - destruct (uvc_get_power_mode_run devh mode req_code w)
      as (e & [_ Ha] & _ & _ & _ & _ & ->).
    now rewrite (answered_ret _ _ _ _ Hdev Ha), Hne.
  - destruct (uvc_set_power_mode_run devh mode w)
      as (e & [_ Ha] & _ & _ & _ & _ & _ & ->).
    now rewrite (answered_ret _ _ _ _ Hdev Ha), Hne.
Qed.

(** ** Reading the address back from the setup packet *)

Lemma address_fields_decode unit ctrl ifnum :
  0 <= unit < 2 ^ 8 -> 0 <= ctrl < 2 ^ 8 -> 0 <= ifnum < 2 ^ 8 ->
  Z.shiftr (to_uint16 (Z.shiftl ctrl 8)) 8 = ctrl /\
  Z.land (to_uint16 (Z.shiftl ctrl 8)) 255 = 0 /\
  Z.shiftr (to_uint16 (Z.lor (Z.shiftl unit 8) ifnum)) 8 = unit /\
  Z.land (to_uint16 (Z.lor (Z.shiftl unit 8) ifnum)) 255 = ifnum.
Proof.
  intros Hu Hc Hi.
  rewrite selector_fits, index_fits, lor_shiftl8, shiftl8_pow by assumption.
  change 255 with (Z.ones 8). rewrite !Z.land_ones, !Z.shiftr_div_pow2 by lia.
  repeat split.
  - rewrite Z.mul_comm. apply Z.div_mul. lia.
  - rewrite Z.mul_comm. apply Z.mod_mul. lia.
  - rewrite Z.mul_comm, Z.div_add_l by lia. rewrite Z.div_small; lia.
  - rewrite Z.mul_comm, Z.add_comm, Z.mod_add by lia.
    now apply Z.mod_small.
Qed.

(** X2.  The address of a unit request can be read back from the setup
    packet: for 8-bit unit, selector and interface number, the high byte
    of [wValue] is the selector and its low byte is 0, the high byte of
    [wIndex] is the unit and its low byte is the interface number.  So
    two requests with different addresses never share their fields. *)
Theorem unit_address_read_back
    devh unit ctrl data len req_code w e1 e2 e3 :
  0 <= unit < 2 ^ 8 ->
  0 <= ctrl < 2 ^ 8 ->
  0 <= bInterfaceNumber (ctrl_if (info devh)) < 2 ^ 8 ->
  performs (uvc_get_ctrl_len devh unit ctrl) w e1 ->
  performs (uvc_get_ctrl devh unit ctrl data len req_code) w e2 ->
  performs (uvc_set_ctrl devh unit ctrl data len) w e3 ->
  forall e, e = e1 \/ e = e2 \/ e = e3 ->
    Z.shiftr (wValue (ev_setup e)) 8 = ctrl /\
    Z.land (wValue (ev_setup e)) 255 = 0 /\
    Z.shiftr (wIndex (ev_setup e)) 8 = unit /\
    Z.land (wIndex (ev_setup e)) 255
      = bInterfaceNumber (ctrl_if (info devh)).
Proof.
  intros Hu Hc Hi Hp1 Hp2 Hp3 e He.
  destruct (uvc_get_ctrl_len_run devh unit ctrl w)
    as (x1 & Hx1 & Hv1 & Hi1 & _).
  destruct (uvc_get_ctrl_run devh unit ctrl data len req_code w)
    as (x2 & Hx2 & Hv2 & Hi2 & _).
  destruct (uvc_set_ctrl_run devh unit ctrl data len w)
    as (x3 & Hx3 & Hv3 & Hi3 & _).
  rewrite <- (performs_unique _ _ _ _ Hp1 Hx1) in Hv1, Hi1.
  rewrite <- (performs_unique _ _ _ _ Hp2 Hx2) in Hv2, Hi2.
  rewrite <- (performs_unique _ _ _ _ Hp3 Hx3) in Hv3, Hi3.
  destruct He as [-> | [-> | ->]].
  - rewrite Hv1, Hi1. now apply address_fields_decode.
  - rewrite Hv2, Hi2. now apply address_fields_decode.
  - rewrite Hv3, Hi3. now apply address_fields_decode.
Qed.

(** ** The byte the device delivered *)

(** X3.  When the device answers a one-byte query with one byte
    transferred and delivers the byte [b] (bytes past the first do not fit
    the buffer and are dropped), [uvc_vc_get_error_code] and
    [uvc_get_power_mode] return [UVC_SUCCESS] and replace the output,
    whatever it held, by the value of [b], a number in [0, 255]. *)
Theorem one_byte_queries_deliver
    devh error_code mode req_code w b rest :
  (forall s buf, fst (usb_respond (bus w) s buf) = (1, b :: rest)) ->
  result (uvc_vc_get_error_code devh error_code req_code) w
    = (UVC_SUCCESS, byte.unsigned b) /\
  result (uvc_get_power_mode devh mode req_code) w
    = (UVC_SUCCESS, byte.unsigned b) /\
  0 <= byte.unsigned b <= 255.
Proof.
  intros Hdev. split; [| split].
  - destruct (uvc_vc_get_error_code_run devh error_code req_code w)
      as (e & [_ Ha] & _ & _ & _ & Hout & ->).
    destruct (answered_with _ _ _ _ _ Hdev Ha) as [-> ->].
    now rewrite Hout.
  - destruct (uvc_get_power_mode_run devh mode req_code w)
      as (e & [_ Ha] & _ & _ & _ & Hout & ->).
    destruct (answered_with _ _ _ _ _ Hdev Ha) as [-> ->].
    now rewrite Hout.
  - pose proof (byte.unsigned_range b). lia.
Qed.

(** ** What [uvc_set_power_mode] puts on the wire *)

(** X4.  [uvc_set_power_mode] sends one [UVC_SET_CUR] request of type
    [REQ_TYPE_SET] with a data stage of one byte, the mode reduced modulo
    256: a mode in [0, 255] travels as itself, and modes that agree modulo
    256 cannot be told apart. *)
Theorem uvc_set_power_mode_payload devh mode w e :
  performs (uvc_set_power_mode devh mode) w e ->
  bmRequestType (ev_setup e) = to_uint8 REQ_TYPE_SET /\
  bRequest (ev_setup e) = to_uint8 UVC_SET_CUR /\
  wLength (ev_setup e) = 1 /\
  exists b,
    ev_data_out e = [b] /\
    byte.unsigned b = mode mod 2 ^ 8 /\
    (0 <= mode < 2 ^ 8 -> byte.unsigned b = mode) /\
    uvc_set_power_mode devh (mode + 2 ^ 8) w = uvc_set_power_mode devh mode w.
Proof.
  intros Hp.
  destruct (uvc_set_power_mode_cases devh mode w e Hp)
    as (Hrq & Hlen & Hout & _).
  assert (Hty : bmRequestType (ev_setup e) = to_uint8 REQ_TYPE_SET).
  { revert Hp. unfold uvc_set_power_mode. run_transfer.
    destruct (n =? 1); simpl; intros [He _]; now injection He as <-. }
  repeat (split; [assumption |]).
  exists (byte.of_Z mode). split; [exact Hout | split; [| split]].
  - apply byte.unsigned_of_Z.
  - apply power_mode_payload.
  - assert (Hb : byte.of_Z (mode + 2 ^ 8) = byte.of_Z mode).
    { apply byte.unsigned_inj. rewrite !byte.unsigned_of_Z. unfold byte.wrap.
      rewrite <- (Z.mul_1_l (2 ^ 8)) at 1. apply Z.mod_add. lia. }
    unfold uvc_set_power_mode. now rewrite Hb.
Qed.

(** ** When success is reported *)

(** X5.  The three functions that test [ret == 1] return [UVC_SUCCESS]
    exactly when the transfer returned 1 or returned the value of
    [UVC_SUCCESS] itself; every other transfer result comes back as a
    value different from [UVC_SUCCESS]. *)
Theorem success_reported_exactly
    devh error_code mode req_code w e1 e2 e3 :
  performs (uvc_vc_get_error_code devh error_code req_code) w e1 ->
  performs (uvc_get_power_mode devh mode req_code) w e2 ->
  performs (uvc_set_power_mode devh mode) w e3 ->
  (fst (result (uvc_vc_get_error_code devh error_code req_code) w)
     = UVC_SUCCESS <-> ev_ret e1 = 1 \/ ev_ret e1 = UVC_SUCCESS) /\
  (fst (result (uvc_get_power_mode devh mode req_code) w)
     = UVC_SUCCESS <-> ev_ret e2 = 1 \/ ev_ret e2 = UVC_SUCCESS) /\
  (result (uvc_set_power_mode devh mode) w
     = UVC_SUCCESS <-> ev_ret e3 = 1 \/ ev_ret e3 = UVC_SUCCESS).
Proof.
  intros Hp1 Hp2 Hp3.
  destruct (uvc_vc_get_error_code_cases _ _ _ _ _ Hp1) as (b1 & _ & Hy1 & Hn1).
  destruct (uvc_get_power_mode_cases _ _ _ _ _ Hp2) as (b2 & _ & Hy2 & Hn2).
  destruct (uvc_set_power_mode_cases _ _ _ _ Hp3) as (_ & _ & _ & Hy3 & Hn3).
  split; [| split].
  - destruct (Z.eq_dec (ev_ret e1) 1) as [H1 | H1].
    + rewrite (Hy1 H1). simpl. tauto.
    + rewrite (Hn1 H1). simpl. tauto.
  - destruct (Z.eq_dec (ev_ret e2) 1) as [H1 | H1].
    + rewrite (Hy2 H1). simpl. tauto.
    + rewrite (Hn2 H1). simpl. tauto.
  - destruct (Z.eq_dec (ev_ret e3) 1) as [H1 | H1].
    + rewrite (Hy3 H1). tauto.
    + rewrite (Hn3 H1). tauto.
Qed.

(** ** The special requests as generic requests *)

(** X6.  Each special request is the generic one plus a decoding step.
    [uvc_get_ctrl_len] is [uvc_get_ctrl] with request [UVC_GET_LEN] on a
    two-byte buffer; the VC error code and power mode queries are
    [uvc_get_ctrl] on unit 0 with the fixed selector and a one-byte
    buffer; [uvc_set_power_mode] is [uvc_set_ctrl] on unit 0 with the
    mode byte.  In each pair the transfer, the journal and the device
    state left behind are the same. *)
Theorem special_requests_are_generic devh unit ctrl error_code mode req_code w :
  uvc_get_ctrl_len devh unit ctrl w =
    (let '(ret, buf, w') :=
       uvc_get_ctrl devh unit ctrl [uninitialised 0; uninitialised 1] 2
         UVC_GET_LEN w in
     (if ret <? 0 then ret else to_uint16 (SW_TO_SHORT buf), w')) /\
  uvc_vc_get_error_code devh error_code req_code w =
    (let '(ret, buf, w') :=
       uvc_get_ctrl devh 0 UVC_VC_REQUEST_ERROR_CODE_CONTROL [byte.of_Z 0] 1
         req_code w in
     (if ret =? 1 then (UVC_SUCCESS, byte.unsigned (nth 0 buf Byte.x00))
      else (ret, error_code), w')) /\
  uvc_get_power_mode devh mode req_code w =
    (let '(ret, buf, w') :=
       uvc_get_ctrl devh 0 UVC_VC_VIDEO_POWER_MODE_CONTROL [uninitialised 0] 1
         req_code w in
     (if ret =? 1 then (UVC_SUCCESS, byte.unsigned (nth 0 buf Byte.x00))
      else (ret, mode), w')) /\
  uvc_set_power_mode devh mode w =
    (let '(ret, _, w') :=
       uvc_set_ctrl devh 0 UVC_VC_VIDEO_POWER_MODE_CONTROL [byte.of_Z mode] 1
         w in
     (if ret =? 1 then UVC_SUCCESS else ret, w')).
Proof.
  assert (Hz : forall i, Z.lor (Z.shiftl 0 8) i = i).
  { intros i. now rewrite Z.shiftl_0_l, Z.lor_0_l. }
  unfold uvc_get_ctrl_len, uvc_vc_get_error_code, uvc_get_power_mode,
    uvc_set_power_mode, uvc_get_ctrl, uvc_set_ctrl, Bind, Return,
    libusb_control_transfer.
  rewrite !Hz.
  repeat split.
  all: destruct (usb_respond _ _ _) as [[n rx] d]; simpl.
  - now destruct (n <? 0).
  - now destruct (n =? 1).
  - now destruct (n =? 1).
  - now destruct (n =? 1).
Qed.

(** ** The length query and the bytes delivered *)

(** X7.  When the transfer does not fail, [uvc_get_ctrl_len] assembles its
    result from whatever is in its two-byte array.  Two or more delivered
    bytes give the first two (later ones are dropped); one delivered byte
    is completed, and none are replaced, by the bytes the uninitialised
    array happened to hold. *)
Theorem uvc_get_ctrl_len_by_delivery devh unit ctrl w n rx :
  0 <= n ->
  (forall s buf, fst (usb_respond (bus w) s buf) = (n, rx)) ->
  (forall b0 b1 rest, rx = b0 :: b1 :: rest ->
     result (uvc_get_ctrl_len devh unit ctrl) w
       = byte.unsigned b0 + 2 ^ 8 * byte.unsigned b1) /\
  (forall b0, rx = [b0] ->
     result (uvc_get_ctrl_len devh unit ctrl) w
       = byte.unsigned b0 + 2 ^ 8 * byte.unsigned (uninitialised 1)) /\
  (rx = [] ->
     result (uvc_get_ctrl_len devh unit ctrl) w
       = byte.unsigned (uninitialised 0)
         + 2 ^ 8 * byte.unsigned (uninitialised 1)).
Proof.
  intros Hn Hdev.
  destruct (uvc_get_ctrl_len_run devh unit ctrl w)
    as (e & [_ Ha] & _ & _ & _ & Hout & ->).
  destruct (answered_with _ _ _ _ _ Hdev Ha) as [-> ->].
  destruct (Z.ltb_spec n 0) as [Hlt | _]; [lia |].
  rewrite Hout.
  split; [| split]; intros; subst rx; unfold fill; simpl firstn.
  all: rewrite SW_TO_SHORT_le; apply to_uint16_small.
  all: rewrite <- SW_TO_SHORT_le; apply SW_TO_SHORT_range.
Qed.

(** X8.  Round trip of a length: when the device delivers a 16-bit
    length [l], low byte first, and the transfer does not fail,
    [uvc_get_ctrl_len] returns [l]. *)
Theorem uvc_get_ctrl_len_round_trip devh unit ctrl w n l :
  0 <= n ->
  0 <= l < 2 ^ 16 ->
  (forall s buf,
     fst (usb_respond (bus w) s buf)
       = (n, [byte.of_Z l; byte.of_Z (Z.shiftr l 8)])) ->
  result (uvc_get_ctrl_len devh unit ctrl) w = l.
Proof.
  intros Hn Hl Hdev.
  destruct (uvc_get_ctrl_len_run devh unit ctrl w)
    as (e & [_ Ha] & _ & _ & _ & Hout & ->).
  destruct (answered_with _ _ _ _ _ Hdev Ha) as [-> ->].
  destruct (Z.ltb_spec n 0) as [Hlt | _]; [lia |].
  rewrite Hout. unfold fill. simpl firstn.
  rewrite to_uint16_small by apply SW_TO_SHORT_range.
  rewrite SW_TO_SHORT_le, !byte.unsigned_of_Z. unfold byte.wrap.
  rewrite Z.shiftr_div_pow2 by lia.
  rewrite (Z.mod_small (l / 2 ^ 8)).
  - pose proof (Z.div_mod l (2 ^ 8)). lia.
  - split; [apply Z.div_pos; lia | apply Z.div_lt_upper_bound; lia].
Qed.

End Properties.

#[local] Existing Instance libuvc_values.
#[local] Existing Instance scripted_bus.

(** * The functions at work on the scripted bus *)

(** The addressing example: unit 5, interface 0, selector 9 gives
    [wValue = 0x0900] and [wIndex = 0x0500]. *)
Example get_cur_unit5_selector9 :
  map (fun e => (wValue (ev_setup e), wIndex (ev_setup e)))
      (journal (uvc_get_ctrl camera 5 9 [Byte.x00] 1 UVC_GET_CUR)
               (plugged [(1, [Byte.x2a])]))
  = [(0x0900, 0x0500)].
Proof. reflexivity. Qed.

Example get_ctrl_len_two_bytes :
  result (uvc_get_ctrl_len camera 5 9) (plugged [(2, [Byte.x34; Byte.x12])])
  = 0x1234.
Proof. reflexivity. Qed.

Example get_ctrl_len_io_error :
  result (uvc_get_ctrl_len camera 5 9) (plugged [(-1, [])]) = -1.
Proof. reflexivity. Qed.

Lemma unit_requests_addressing_witness :
  0 <= 5 < 2 ^ 8 /\
  0 <= 9 < 2 ^ 8 /\
  0 <= bInterfaceNumber (ctrl_if (info camera)) < 2 ^ 8 /\
  (exists e,
     performs (uvc_get_ctrl_len camera 5 9) (plugged []) e /\
     wValue (ev_setup e) = 0x0900 /\ wIndex (ev_setup e) = 0x0500) /\
  (exists e,
     performs (uvc_get_ctrl camera 5 9 [] 0 UVC_GET_CUR) (plugged []) e /\
     wValue (ev_setup e) = 0x0900 /\ wIndex (ev_setup e) = 0x0500) /\
  (exists e,
     performs (uvc_set_ctrl camera 5 9 [] 0) (plugged []) e /\
     wValue (ev_setup e) = 0x0900 /\ wIndex (ev_setup e) = 0x0500).
Proof.
  assert (Hu : 0 <= 5 < 2 ^ 8) by lia.
  assert (Hc : 0 <= 9 < 2 ^ 8) by lia.
  assert (Hi : 0 <= bInterfaceNumber (ctrl_if (info camera)) < 2 ^ 8)
    by (simpl; lia).
  split; [exact Hu | split; [exact Hc | split; [exact Hi |]]].
  exact (unit_requests_addressing camera 5 9 [] 0 UVC_GET_CUR (plugged [])
           Hu Hc Hi).
Defined.

Lemma interface_requests_addressing_witness :
  0 <= UVC_VC_REQUEST_ERROR_CODE_CONTROL < 2 ^ 8 /\
  0 <= UVC_VC_VIDEO_POWER_MODE_CONTROL < 2 ^ 8 /\
  0 <= bInterfaceNumber (ctrl_if (info camera)) < 2 ^ 8 /\
  (exists e,
     performs (uvc_vc_get_error_code camera 0 UVC_GET_CUR) (plugged []) e /\
     wValue (ev_setup e) = 0x0200 /\ wIndex (ev_setup e) = 0 /\
     Z.shiftr (wIndex (ev_setup e)) 8 = 0) /\
  (exists e,
     performs (uvc_get_power_mode camera 0 UVC_GET_CUR) (plugged []) e /\
     wValue (ev_setup e) = 0x0100 /\ wIndex (ev_setup e) = 0 /\
     Z.shiftr (wIndex (ev_setup e)) 8 = 0) /\
  (exists e,
     performs (uvc_set_power_mode camera 0) (plugged []) e /\
     wValue (ev_setup e) = 0x0100 /\ wIndex (ev_setup e) = 0 /\
     Z.shiftr (wIndex (ev_setup e)) 8 = 0).
Proof.
  assert (He : 0 <= UVC_VC_REQUEST_ERROR_CODE_CONTROL < 2 ^ 8)
    by (simpl; lia).
  assert (Hm : 0 <= UVC_VC_VIDEO_POWER_MODE_CONTROL < 2 ^ 8)
    by (simpl; lia).
  assert (Hi : 0 <= bInterfaceNumber (ctrl_if (info camera)) < 2 ^ 8)
    by (simpl; lia).
  split; [exact He | split; [exact Hm | split; [exact Hi |]]].
  exact (interface_requests_addressing camera 0 0 UVC_GET_CUR (plugged [])
           He Hm Hi).
Defined.

(** The transfer a scripted answer gives rise to. *)
Ltac scripted_transfer :=
  split; [reflexivity | eexists; split; reflexivity].

Lemma uvc_get_ctrl_len_short_response_witness :
  exists e,
    performs (uvc_get_ctrl_len camera 5 9) (plugged [(1, [Byte.x34])]) e /\
    0 <= ev_ret e < 2 /\
    result (uvc_get_ctrl_len camera 5 9) (plugged [(1, [Byte.x34])])
      = to_uint16 (SW_TO_SHORT (ev_data_in e)) /\
    result (uvc_get_ctrl_len camera 5 9) (plugged [(1, [Byte.x34])])
      = 0xaa34.
Proof.
  eexists. split; [scripted_transfer | split; [simpl; lia | split]].
  - apply uvc_get_ctrl_len_short_response;
      [scripted_transfer | simpl; lia].
  - reflexivity.
Defined.

Lemma uvc_get_power_mode_stores_any_byte_witness :
  exists e,
    performs (uvc_get_power_mode camera 0 UVC_GET_CUR)
      (plugged [(1, [Byte.x0b])]) e /\
    ev_ret e = 1 /\
    exists b,
      ev_data_in e = [b] /\
      result (uvc_get_power_mode camera 0 UVC_GET_CUR)
        (plugged [(1, [Byte.x0b])]) = (UVC_SUCCESS, byte.unsigned b).
Proof.
  eexists. split; [scripted_transfer | split; [reflexivity |]].
  apply uvc_get_power_mode_stores_any_byte;
    [scripted_transfer | reflexivity].
Defined.

(** C7 as the specification states it does not hold.  The device answers
    the one-byte read with [0xff], which is no enumerator of
    [uvc_device_power_mode]; [uvc_get_power_mode] returns [UVC_SUCCESS]
    and hands [0xff] to the caller as the power mode. *)
Lemma unknown_power_mode_accepted :
  exists e,
    performs (uvc_get_power_mode camera 0x0b UVC_GET_CUR)
      (plugged [(1, [Byte.xff])]) e /\
    ev_ret e = 1 /\
    ev_data_in e = [Byte.xff] /\
    ~ In 0xff uvc_device_power_modes /\
    result (uvc_get_power_mode camera 0x0b UVC_GET_CUR)
      (plugged [(1, [Byte.xff])]) = (UVC_SUCCESS, 0xff).
Proof.
  eexists. split; [scripted_transfer |].
  repeat split.
  simpl. intros [Hf | [Hd | []]]; discriminate.
Qed.

Lemma outputs_left_alone_witness :
  exists e1 e2,
    performs (uvc_vc_get_error_code camera 7 UVC_GET_CUR)
      (plugged [(0, [])]) e1 /\
    performs (uvc_get_power_mode camera 0x0b UVC_GET_CUR)
      (plugged [(0, [])]) e2 /\
    (ev_ret e1 <> 1 ->
     snd (result (uvc_vc_get_error_code camera 7 UVC_GET_CUR)
            (plugged [(0, [])])) = 7) /\
    (ev_ret e2 <> 1 ->
     snd (result (uvc_get_power_mode camera 0x0b UVC_GET_CUR)
            (plugged [(0, [])])) = 0x0b) /\
    (forall w',
     snd (result (uvc_vs_get_error_code camera 3 UVC_GET_CUR) w') = 3).
Proof.
  do 2 eexists.
  split; [scripted_transfer | split; [scripted_transfer |]].
  apply outputs_left_alone; scripted_transfer.
Defined.

(** * Zero bytes transferred *)

(** C3, at the input where the code departs from it.  The device answers
    the one-byte read with no byte at all, so the primitive returns 0.
    Both [uvc_vc_get_error_code] and [uvc_get_power_mode] take the [else]
    branch and return that 0, which is the value of [UVC_SUCCESS]; the
    caller's output is as it was. *)
Theorem one_byte_queries_zero_bytes :
  (exists e,
     performs (uvc_vc_get_error_code camera 7 UVC_GET_CUR)
       (plugged [(0, [])]) e /\
     ev_ret e = 0 /\
     result (uvc_vc_get_error_code camera 7 UVC_GET_CUR)
       (plugged [(0, [])]) = (UVC_SUCCESS, 7)) /\
  (exists e,
     performs (uvc_get_power_mode camera 0x0b UVC_GET_CUR)
       (plugged [(0, [])]) e /\
     ev_ret e = 0 /\
     result (uvc_get_power_mode camera 0x0b UVC_GET_CUR)
       (plugged [(0, [])]) = (UVC_SUCCESS, 0x0b)).
Proof.
  split; eexists; (split; [scripted_transfer | split; reflexivity]).
Qed.

(** C6, at the input where the code departs from it.  The payload is the
    one byte [0x0b], the value of the mode; the primitive returns 0 and
    [uvc_set_power_mode] returns that 0, the value of [UVC_SUCCESS]. *)
Theorem uvc_set_power_mode_zero_bytes :
  exists e,
    performs (uvc_set_power_mode camera 0x0b) (plugged [(0, [])]) e /\
    bRequest (ev_setup e) = UVC_SET_CUR /\
    ev_data_out e = [Byte.x0b] /\
    ev_ret e = 0 /\
    result (uvc_set_power_mode camera 0x0b) (plugged [(0, [])])
      = UVC_SUCCESS.
Proof.
  eexists. split; [scripted_transfer | repeat split].
Qed.

(** * The further properties on the scripted bus *)

Lemma transport_failure_propagates_witness :
  -1 < 0 /\
  (forall s buf, fst (fst (usb_respond (bus (plugged [])) s buf)) = -1) /\
  result (uvc_get_ctrl_len camera 5 9) (plugged []) = -1 /\
  fst (result (uvc_get_ctrl camera 5 9 [Byte.x00] 1 UVC_GET_CUR)
         (plugged [])) = -1 /\
  fst (result (uvc_set_ctrl camera 5 9 [Byte.x00] 1) (plugged [])) = -1 /\
  result (uvc_vc_get_error_code camera 7 UVC_GET_CUR) (plugged [])
    = (-1, 7) /\
  result (uvc_get_power_mode camera 0x0b UVC_GET_CUR) (plugged [])
    = (-1, 0x0b) /\
  result (uvc_set_power_mode camera 0x0b) (plugged []) = -1.
Proof.
  assert (Hn : -1 < 0) by lia.
  assert (Hdev : forall s buf,
            fst (fst (usb_respond (bus (plugged [])) s buf)) = -1)
    by (intros s buf; reflexivity).
  split; [exact Hn | split; [exact Hdev |]].
  exact (transport_failure_propagates camera 5 9 [Byte.x00] 1 UVC_GET_CUR
           7 0x0b (plugged []) (-1) Hn Hdev).
Defined.

Lemma unit_address_read_back_witness :
  exists e1 e2 e3,
    0 <= 5 < 2 ^ 8 /\
    0 <= 9 < 2 ^ 8 /\
    0 <= bInterfaceNumber (ctrl_if (info camera)) < 2 ^ 8 /\
    performs (uvc_get_ctrl_len camera 5 9) (plugged []) e1 /\
    performs (uvc_get_ctrl camera 5 9 [] 0 UVC_GET_CUR) (plugged []) e2 /\
    performs (uvc_set_ctrl camera 5 9 [] 0) (plugged []) e3 /\
    forall e, e = e1 \/ e = e2 \/ e = e3 ->
      Z.shiftr (wValue (ev_setup e)) 8 = 9 /\
      Z.land (wValue (ev_setup e)) 255 = 0 /\
      Z.shiftr (wIndex (ev_setup e)) 8 = 5 /\
      Z.land (wIndex (ev_setup e)) 255
        = bInterfaceNumber (ctrl_if (info camera)).
Proof.
  do 3 eexists.
  split; [lia | split; [lia | split; [simpl; lia |]]].
  split; [scripted_transfer | split; [scripted_transfer |]].
  split; [scripted_transfer |].
  apply (unit_address_read_back camera 5 9 [] 0 UVC_GET_CUR (plugged []));
    [lia | lia | simpl; lia | scripted_transfer ..].
Defined.

Lemma one_byte_queries_deliver_witness :
  (forall s buf,
     fst (usb_respond (bus (plugged [(1, [Byte.x06; Byte.x01])])) s buf)
       = (1, [Byte.x06; Byte.x01])) /\
  result (uvc_vc_get_error_code camera 0 UVC_GET_CUR)
    (plugged [(1, [Byte.x06; Byte.x01])]) = (UVC_SUCCESS, 6) /\
  result (uvc_get_power_mode camera 0 UVC_GET_CUR)
    (plugged [(1, [Byte.x06; Byte.x01])]) = (UVC_SUCCESS, 6) /\
  0 <= byte.unsigned Byte.x06 <= 255.
Proof.
  assert (Hdev : forall s buf,
            fst (usb_respond (bus (plugged [(1, [Byte.x06; Byte.x01])]))
                   s buf) = (1, [Byte.x06; Byte.x01]))
    by (intros s buf; reflexivity).
  split; [exact Hdev |].
  exact (one_byte_queries_deliver camera 0 0 UVC_GET_CUR _ _ _ Hdev).
Defined.

Lemma uvc_set_power_mode_payload_witness :
  exists e,
    performs (uvc_set_power_mode camera 0x1b) (plugged [(1, [])]) e /\
    bmRequestType (ev_setup e) = to_uint8 REQ_TYPE_SET /\
    bRequest (ev_setup e) = to_uint8 UVC_SET_CUR /\
    wLength (ev_setup e) = 1 /\
    exists b,
      ev_data_out e = [b] /\
      byte.unsigned b = 0x1b mod 2 ^ 8 /\
      (0 <= 0x1b < 2 ^ 8 -> byte.unsigned b = 0x1b) /\
      uvc_set_power_mode camera (0x1b + 2 ^ 8) (plugged [(1, [])])
        = uvc_set_power_mode camera 0x1b (plugged [(1, [])]).
Proof.
  eexists. split; [scripted_transfer |].
  apply uvc_set_power_mode_payload. scripted_transfer.
Defined.

Lemma success_reported_exactly_witness :
  exists e1 e2 e3,
    performs (uvc_vc_get_error_code camera 7 UVC_GET_CUR)
      (plugged [(2, [Byte.x06])]) e1 /\
    performs (uvc_get_power_mode camera 0x0b UVC_GET_CUR)
      (plugged [(2, [Byte.x06])]) e2 /\
    performs (uvc_set_power_mode camera 0x0b) (plugged [(2, [Byte.x06])]) e3 /\
    (fst (result (uvc_vc_get_error_code camera 7 UVC_GET_CUR)
            (plugged [(2, [Byte.x06])]))
       = UVC_SUCCESS <-> ev_ret e1 = 1 \/ ev_ret e1 = UVC_SUCCESS) /\
    (fst (result (uvc_get_power_mode camera 0x0b UVC_GET_CUR)
            (plugged [(2, [Byte.x06])]))
       = UVC_SUCCESS <-> ev_ret e2 = 1 \/ ev_ret e2 = UVC_SUCCESS) /\
    (result (uvc_set_power_mode camera 0x0b) (plugged [(2, [Byte.x06])])
       = UVC_SUCCESS <-> ev_ret e3 = 1 \/ ev_ret e3 = UVC_SUCCESS).
Proof.
  do 3 eexists.
  split; [scripted_transfer | split; [scripted_transfer |]].
  split; [scripted_transfer |].
  apply success_reported_exactly; scripted_transfer.
Defined.

Lemma uvc_get_ctrl_len_by_delivery_witness :
  0 <= 1 /\
  (forall s buf,
     fst (usb_respond (bus (plugged [(1, [Byte.x34])])) s buf)
       = (1, [Byte.x34])) /\
  (forall b0 b1 rest, [Byte.x34] = b0 :: b1 :: rest ->
     result (uvc_get_ctrl_len camera 5 9) (plugged [(1, [Byte.x34])])
       = byte.unsigned b0 + 2 ^ 8 * byte.unsigned b1) /\
  (forall b0, [Byte.x34] = [b0] ->
     result (uvc_get_ctrl_len camera 5 9) (plugged [(1, [Byte.x34])])
       = byte.unsigned b0 + 2 ^ 8 * byte.unsigned (uninitialised 1)) /\
  ([Byte.x34] = [] ->
     result (uvc_get_ctrl_len camera 5 9) (plugged [(1, [Byte.x34])])
       = byte.unsigned (uninitialised 0)
         + 2 ^ 8 * byte.unsigned (uninitialised 1)).
Proof.
  assert (Hn : 0 <= 1) by lia.
  assert (Hdev : forall s buf,
            fst (usb_respond (bus (plugged [(1, [Byte.x34])])) s buf)
              = (1, [Byte.x34]))
    by (intros s buf; reflexivity).
  split; [exact Hn | split; [exact Hdev |]].
  exact (uvc_get_ctrl_len_by_delivery camera 5 9 _ _ _ Hn Hdev).
Defined.

Lemma uvc_get_ctrl_len_round_trip_witness :
  0 <= 2 /\
  0 <= 0x1234 < 2 ^ 16 /\
  (forall s buf,
     fst (usb_respond
            (bus (plugged [(2, [byte.of_Z 0x1234;
                                byte.of_Z (Z.shiftr 0x1234 8)])])) s buf)
       = (2, [byte.of_Z 0x1234; byte.of_Z (Z.shiftr 0x1234 8)])) /\
  result (uvc_get_ctrl_len camera 5 9)
    (plugged [(2, [byte.of_Z 0x1234; byte.of_Z (Z.shiftr 0x1234 8)])])
    = 0x1234.
Proof.
  assert (Hn : 0 <= 2) by lia.
  assert (Hl : 0 <= 0x1234 < 2 ^ 16) by lia.
  assert (Hdev : forall s buf,
     fst (usb_respond
            (bus (plugged [(2, [byte.of_Z 0x1234;
                                byte.of_Z (Z.shiftr 0x1234 8)])])) s buf)
       = (2, [byte.of_Z 0x1234; byte.of_Z (Z.shiftr 0x1234 8)]))
    by (intros s buf; reflexivity).
  split; [exact Hn | split; [exact Hl | split; [exact Hdev |]]].
  exact (uvc_get_ctrl_len_round_trip camera 5 9 _ _ _ Hn Hl Hdev).
Defined.
